(** * A shallow embedding of [main.py]

    The module is a FastAPI application with three pieces of logic:
    the WhatsApp notifier [send_whatsapp_message], the contact handler
    [create_contact] behind [POST /api/contact], and the diagnostics handler
    [test_database] behind [GET /test].

    Calls that leave [main.py] (the schema constructor, the persistence
    gateway, [requests.post], the database handle, [os.getenv]) are answered
    by a [World]; the calls a handler makes are recorded, in order, in a
    trace of [event]s. *)

From Stdlib Require Import List String Ascii Arith NArith Bool Lia.
Import ListNotations.

Local Open Scope N_scope.
Local Open Scope list_scope.

(** ** Python values *)

Module Py.

(** A Python [str] is a sequence of Unicode code points. *)
Definition str : Type := list N.

(** An ASCII literal of the source. *)
Definition lit (s : string) : str :=
  map N_of_ascii (list_ascii_of_string s).

Fixpoint eqb (s t : str) : bool :=
  match s, t with
  | [], [] => true
  | c :: s', d :: t' => N.eqb c d && eqb s' t'
  | _, _ => false
  end.

(** [str.lower()]: the letters [A]-[Z] are mapped to [a]-[z].  Other code
    points are left as they are; the only code points outside ASCII that
    CPython lowers to an ASCII letter are U+212A (to [k]) and U+0130 (to [i]
    followed by U+0307), and neither letter occurs in the one literal
    that [main.py] compares a lowered string with. *)
Definition lower_char (c : N) : N :=
  if (65 <=? c) && (c <=? 90) then c + 32 else c.

Definition lower (s : str) : str := map lower_char s.

(** [s[:n]] *)
Definition slice_to (n : nat) (s : str) : str := firstn n s.

(** Truth value of an [Optional[str]]: [None] and [""] are false. *)
Definition truthy (o : option str) : bool :=
  match o with
  | Some (_ :: _) => true
  | _ => false
  end.

(** [o or d] for an [Optional[str]] [o]. *)
Definition or_else (o : option str) (d : str) : str :=
  match o with
  | Some (c :: s) => c :: s
  | _ => d
  end.

(** [all(required)] *)
Definition all (required : list (option str)) : bool :=
  forallb truthy required.

(** The part of the exception hierarchy that [main.py] distinguishes:
    [ImportError] and every other subclass of [Exception].  The text is
    what [str(e)] returns. *)
Inductive Exception : Type :=
| ImportError (msg : str)
| OtherError (msg : str).

Definition str_of (e : Exception) : str :=
  match e with
  | ImportError msg => msg
  | OtherError msg => msg
  end.

(** A JSON document, as [json.loads] gives it and [JSONResponse] renders
    it.  The members of an object have distinct keys; [get] reads a key.
    Of a number only the fact that it is not a string matters here. *)
#[warnings="-register-all"]
Inductive json : Type :=
| JNull
| JBool (b : bool)
| JNumber (n : N)
| JString (s : str)
| JArray (items : list json)
| JObject (members : list (str * json)).

Fixpoint get (key : str) (members : list (str * json)) : option json :=
  match members with
  | [] => None
  | (k, v) :: rest => if eqb k key then Some v else get key rest
  end.

End Py.

Import Py.

(** ** Computations: a state and exception monad

    A computation runs on a state [S] (the trace of calls made so far, or
    the dictionary a handler fills in) and either returns a value or raises
    an [E].  What was written to the state before a [raise] stays written,
    as in Python. *)

Definition M (E S A : Type) : Type := S -> (E + A) * S.

Definition ret {E S A} (a : A) : M E S A := fun s => (inr a, s).

Definition raise {E S A} (e : E) : M E S A := fun s => (inl e, s).

Definition bind {E S A B} (m : M E S A) (k : A -> M E S B) : M E S B :=
  fun s =>
    match m s with
    | (inr a, s') => k a s'
    | (inl e, s') => (inl e, s')
    end.

(** [try: m except Exception as e: h e]; the handler may raise in another
    exception type. *)
Definition try_except {E E' S A} (m : M E S A) (h : E -> M E' S A) : M E' S A :=
  fun s =>
    match m s with
    | (inr a, s') => (inr a, s')
    | (inl e, s') => h e s'
    end.

(** An exception that is not handled, seen from the caller. *)
Definition propagate {E E' S A} (f : E -> E') (m : M E S A) : M E' S A :=
  try_except m (fun e => raise (f e)).

Definition modify {E S} (f : S -> S) : M E S unit := fun s => (inr tt, f s).

(** A call whose outcome [r] the world decides: value or exception. *)
Definition outcome {E S A} (r : E + A) : M E S A := fun s => (r, s).

Declare Scope py_scope.
Delimit Scope py_scope with py.
Notation "x <- m ;; k" := (bind m (fun x => k))
  (at level 61, m at next level, right associativity) : py_scope.
Notation "m ;; k" := (bind m (fun _ => k))
  (at level 61, right associativity) : py_scope.
Local Open Scope py_scope.

(** ** The data of the contact flow *)

(** [class ContactIn(BaseModel)] *)
Record ContactIn : Type := {
  in_name : str;
  in_phone : str;
  in_email : option str;
  in_message : str
}.

(** Modelled from the spec: [schemas.ContactMessage], imported at line 7;
    [schemas.py] is not among the sources.  The spec's data model gives it
    the four fields [name], [phone], optional [email] and [message]. *)
Record ContactMessage : Type := {
  name : str;
  phone : str;
  email : option str;
  message : str
}.

(** Modelled from the spec: the field constraints of
    [schemas.ContactMessage].  The spec's data model gives [name] and
    [phone] as non-empty text, [email] as optional and unvalidated and
    [message] as text: the constructor raises on an empty name and on an
    empty phone, and on nothing else.  The result is the text of the
    validation error, [None] when there is none. *)
Definition ContactMessage_constraints (kwargs : ContactIn) : option str :=
  match in_name kwargs, in_phone kwargs with
  | [], _ => Some (lit "name: String should have at least 1 character")
  | _ :: _, [] => Some (lit "phone: String should have at least 1 character")
  | _ :: _, _ :: _ => None
  end.

(** Modelled from the spec: the database handle [database.db], with the two
    members [test_database] uses: the attribute [name], if the object has
    one, and the outcome of [list_collection_names()]. *)
Record Database : Type := {
  db_name : option str;
  list_collection_names : Exception + list str
}.

(** ** The world outside [main.py] *)

Record World : Type := {
  (** [os.getenv(key)] *)
  getenv : str -> option str;
  (** The field constraints of [schemas.ContactMessage]: [Some msg] when the
      constructor raises a validation error on these keyword arguments. *)
  ContactMessage_check : ContactIn -> option str;
  (** [database.create_document(collection, data)]: the generated
      identifier, or the exception raised. *)
  create_document : str -> ContactMessage -> Exception + str;
  (** [requests.post(url, data=, auth=, timeout=)]: the status code of the
      response, or the exception raised. *)
  requests_post :
    str -> list (str * str) -> str * str -> N -> Exception + N;
  (** [from database import db]: the handle ([None] when not initialised),
      or the exception raised by the import. *)
  import_db : Exception + option Database
}.

(** The calls a handler makes into its collaborators, and the contact
    handler's call of the notifier. *)
Inductive event : Type :=
| Call_ContactMessage (kwargs : ContactIn)
| Call_create_document (collection : str) (data : ContactMessage)
| Call_send_whatsapp_message (body : str)
| Call_requests_post (url : str) (data : list (str * str))
    (auth : str * str) (timeout : N).

Definition trace : Type := list event.

Definition emit {E} (ev : event) : M E trace unit :=
  modify (fun tr => tr ++ [ev]).

(** ** Module constants (lines 10-14) *)

Definition getenv_default (w : World) (key default : str) : str :=
  match getenv w key with
  | Some v => v
  | None => default
  end.

Definition TWILIO_WHATSAPP_ENABLED (w : World) : bool :=
  Py.eqb (lower (getenv_default w (lit "TWILIO_WHATSAPP_ENABLED") (lit "false")))
         (lit "true").

Definition TWILIO_ACCOUNT_SID (w : World) : option str :=
  getenv w (lit "TWILIO_ACCOUNT_SID").

Definition TWILIO_AUTH_TOKEN (w : World) : option str :=
  getenv w (lit "TWILIO_AUTH_TOKEN").

Definition TWILIO_WHATSAPP_FROM (w : World) : option str :=
  getenv w (lit "TWILIO_WHATSAPP_FROM").

Definition OWNER_WHATSAPP_TO (w : World) : option str :=
  getenv w (lit "OWNER_WHATSAPP_TO").

(** ** The notifier (lines 81-98) *)

(** A constant that passed [all(required)] used as a string. *)
Definition the (o : option str) : str := or_else o [].

Definition twilio_url (sid : str) : str :=
  lit "https://api.twilio.com/2010-04-01/Accounts/" ++ sid
      ++ lit "/Messages.json".

Definition twilio_data (w : World) (body : str) : list (str * str) :=
  [ (lit "From", the (TWILIO_WHATSAPP_FROM w));
    (lit "To", the (OWNER_WHATSAPP_TO w));
    (lit "Body", body) ].

Definition status_ok (status_code : N) : bool :=
  (status_code =? 200) || (status_code =? 201).

Definition send_whatsapp_message (w : World) (body : str)
  : M Exception trace bool :=
  if negb (TWILIO_WHATSAPP_ENABLED w) then ret false
  else
    let required := [ TWILIO_ACCOUNT_SID w; TWILIO_AUTH_TOKEN w;
                      TWILIO_WHATSAPP_FROM w; OWNER_WHATSAPP_TO w ] in
    if negb (Py.all required) then ret false
    else
      let url := twilio_url (the (TWILIO_ACCOUNT_SID w)) in
      let data := twilio_data w body in
      let auth := (the (TWILIO_ACCOUNT_SID w), the (TWILIO_AUTH_TOKEN w)) in
      try_except
        (emit (Call_requests_post url data auth 10) ;;
         status_code <- outcome (requests_post w url data auth 10) ;;
         ret (status_ok status_code))
        (fun _ => ret false).

(** ** The contact handler (lines 101-126) *)

(** What pydantic reports for a field of the request body. *)
Inductive error_type : Type :=
| missing
| string_type
| model_attributes_type.

Definition validation_error : Type := (str * error_type)%type.

(** A field annotated [str]: required, and a JSON string. *)
Definition required_str (key : str) (members : list (str * json))
  : list validation_error + str :=
  match get key members with
  | None => inl [(key, missing)]
  | Some (JString s) => inr s
  | Some _ => inl [(key, string_type)]
  end.

(** A field annotated [Optional[str] = None]. *)
Definition optional_str (key : str) (members : list (str * json))
  : list validation_error + option str :=
  match get key members with
  | None => inr None
  | Some JNull => inr None
  | Some (JString s) => inr (Some s)
  | Some _ => inl [(key, string_type)]
  end.

Definition errors_of {A} (r : list validation_error + A)
  : list validation_error :=
  match r with
  | inl errors => errors
  | inr _ => []
  end.

(** The validation FastAPI runs on the request body for the parameter
    [payload: ContactIn]. *)
Definition ContactIn_validate (body : json)
  : list validation_error + ContactIn :=
  match body with
  | JObject members =>
      let n := required_str (lit "name") members in
      let p := required_str (lit "phone") members in
      let e := optional_str (lit "email") members in
      let m := required_str (lit "message") members in
      match n, p, e, m with
      | inr n', inr p', inr e', inr m' =>
          inr {| in_name := n'; in_phone := p';
                 in_email := e'; in_message := m' |}
      | _, _, _, _ =>
          inl (errors_of n ++ errors_of p ++ errors_of e ++ errors_of m)
      end
  | _ => inl [([], model_attributes_type)]
  end.

(** Line 110: the schema object built from the fields of the payload. *)
Definition ContactMessage_of (kwargs : ContactIn) : ContactMessage :=
  {| name := in_name kwargs;
     phone := in_phone kwargs;
     email := in_email kwargs;
     message := in_message kwargs |}.

Definition new_ContactMessage (w : World) (kwargs : ContactIn)
  : M Exception trace ContactMessage :=
  emit (Call_ContactMessage kwargs) ;;
  match ContactMessage_check w kwargs with
  | Some msg => raise (OtherError msg)
  | None => ret (ContactMessage_of kwargs)
  end.

(** What leaves a handler: an exception nobody caught, or the
    [HTTPException] the handler raised itself. *)
Inductive handler_exn : Type :=
| Unhandled (e : Exception)
| HTTPException (status_code : N) (detail : str).

Definition newline : str := [10].

(** The f-string of lines 117-123. *)
Definition contact_body (msg : ContactMessage) : str :=
  lit "New Contact Message" ++ newline
  ++ lit "Name: " ++ name msg ++ newline
  ++ lit "Phone: " ++ phone msg ++ newline
  ++ lit "Email: " ++ or_else (email msg) (lit "-") ++ newline
  ++ lit "Message: " ++ slice_to 500 (message msg).

Definition create_contact (w : World) (payload : ContactIn)
  : M handler_exn trace json :=
  msg <- propagate Unhandled (new_ContactMessage w payload) ;;
  doc_id <- try_except
              (emit (Call_create_document (lit "contactmessage") msg) ;;
               outcome (create_document w (lit "contactmessage") msg))
              (fun e =>
                 raise (HTTPException 500
                          (lit "Database error: " ++ slice_to 120 (str_of e)))) ;;
  let body := contact_body msg in
  emit (Call_send_whatsapp_message body) ;;
  _ <- propagate Unhandled (send_whatsapp_message w body) ;;
  ret (JObject [ (lit "ok", JBool true); (lit "id", JString doc_id) ]).

(** ** What FastAPI answers *)

Inductive response : Type :=
| JSONResponse (status_code : N) (content : json)
| RequestValidationError (errors : list validation_error)
| InternalServerError.

Definition status_code_of (r : response) : N :=
  match r with
  | JSONResponse status_code _ => status_code
  | RequestValidationError _ => 422
  | InternalServerError => 500
  end.

(** How FastAPI turns the end of a handler into a response. *)
Definition respond (r : handler_exn + json) : response :=
  match r with
  | inr content => JSONResponse 200 content
  | inl (HTTPException status_code detail) =>
      JSONResponse status_code (JObject [ (lit "detail", JString detail) ])
  | inl (Unhandled _) => InternalServerError
  end.

(** [POST /api/contact]: the response and the calls that were made. *)
Definition post_api_contact (w : World) (body : json) : response * trace :=
  match ContactIn_validate body with
  | inl errors => (RequestValidationError errors, [])
  | inr payload =>
      let '(r, tr) := create_contact w payload [] in
      (respond r, tr)
  end.

(** ** The diagnostics handler (lines 34-76) *)

(** The dictionary [response] of [test_database]. *)
Record status_document : Type := {
  backend : str;
  database : str;
  database_url : option str;
  database_name : option str;
  connection_status : str;
  collections : list str
}.

Definition set_database (v : str) (r : status_document) : status_document :=
  {| backend := backend r; database := v;
     database_url := database_url r; database_name := database_name r;
     connection_status := connection_status r; collections := collections r |}.

Definition set_database_url (v : option str) (r : status_document)
  : status_document :=
  {| backend := backend r; database := database r;
     database_url := v; database_name := database_name r;
     connection_status := connection_status r; collections := collections r |}.

Definition set_database_name (v : option str) (r : status_document)
  : status_document :=
  {| backend := backend r; database := database r;
     database_url := database_url r; database_name := v;
     connection_status := connection_status r; collections := collections r |}.

Definition set_connection_status (v : str) (r : status_document)
  : status_document :=
  {| backend := backend r; database := database r;
     database_url := database_url r; database_name := database_name r;
     connection_status := v; collections := collections r |}.

Definition set_collections (v : list str) (r : status_document)
  : status_document :=
  {| backend := backend r; database := database r;
     database_url := database_url r; database_name := database_name r;
     connection_status := connection_status r; collections := v |}.

(** The three pictographs of the source. *)
Definition check_mark : str := [0x2705].
Definition cross_mark : str := [0x274c].
Definition warning_sign : str := [0x26a0; 0xfe0f].

Definition initial_response : status_document :=
  {| backend := check_mark ++ lit " Running";
     database := cross_mark ++ lit " Not Available";
     database_url := None;
     database_name := None;
     connection_status := lit "Not Connected";
     collections := [] |}.

Definition set_or_not (o : option str) : str :=
  if truthy o then check_mark ++ lit " Set" else cross_mark ++ lit " Not Set".

Definition probe_collections (db : Database)
  : M Exception status_document unit :=
  try_except
    (collections <- outcome (list_collection_names db) ;;
     modify (set_collections (firstn 10 collections)) ;;
     modify (set_database (check_mark ++ lit " Connected & Working")))
    (fun e =>
       modify (set_database
                 (warning_sign ++ lit "  Connected but Error: "
                  ++ slice_to 50 (str_of e)))).

Definition probe_database (w : World) : M Exception status_document unit :=
  db <- outcome (import_db w) ;;
  match db with
  | Some db =>
      modify (set_database (check_mark ++ lit " Available")) ;;
      modify (set_database_url (Some (check_mark ++ lit " Configured"))) ;;
      modify (set_database_name
                (Some (match db_name db with
                       | Some n => n
                       | None => check_mark ++ lit " Connected"
                       end))) ;;
      modify (set_connection_status (lit "Connected")) ;;
      probe_collections db
  | None =>
      modify (set_database (warning_sign ++ lit "  Available but not initialized"))
  end.

Definition test_database_body (w : World)
  : M handler_exn status_document unit :=
  try_except (probe_database w)
    (fun e =>
       match e with
       | ImportError _ =>
           modify (set_database
                     (cross_mark
                      ++ lit " Database module not found (run enable-database first)"))
       | OtherError _ =>
           modify (set_database
                     (cross_mark ++ lit " Error: " ++ slice_to 50 (str_of e)))
       end) ;;
  modify (set_database_url (Some (set_or_not (getenv w (lit "DATABASE_URL"))))) ;;
  modify (set_database_name (Some (set_or_not (getenv w (lit "DATABASE_NAME"))))).

(** [test_database()]: the dictionary returned, or the exception raised. *)
Definition test_database (w : World) : handler_exn + status_document :=
  match test_database_body w initial_response with
  | (inr _, response) => inr response
  | (inl e, _) => inl e
  end.

Definition json_of_optional (o : option str) : json :=
  match o with
  | Some s => JString s
  | None => JNull
  end.

Definition json_of_status_document (r : status_document) : json :=
  JObject [ (lit "backend", JString (backend r));
            (lit "database", JString (database r));
            (lit "database_url", json_of_optional (database_url r));
            (lit "database_name", json_of_optional (database_name r));
            (lit "connection_status", JString (connection_status r));
            (lit "collections", JArray (map JString (collections r))) ].

(** [GET /test] *)
Definition get_test (w : World) : response :=
  respond (match test_database w with
           | inr r => inr (json_of_status_document r)
           | inl e => inl e
           end).

(** ** Observing a run *)

Definition result_of {E S A} (m : M E S A) (s : S) : E + A := fst (m s).
Definition state_after {E S A} (m : M E S A) (s : S) : S := snd (m s).

(** The request the notifier sends for [body]. *)
Definition twilio_request (w : World) (body : str) : event :=
  Call_requests_post (twilio_url (the (TWILIO_ACCOUNT_SID w)))
                     (twilio_data w body)
                     (the (TWILIO_ACCOUNT_SID w), the (TWILIO_AUTH_TOKEN w))
                     10.

Definition twilio_answer (w : World) (body : str) : Exception + N :=
  requests_post w (twilio_url (the (TWILIO_ACCOUNT_SID w)))
                (twilio_data w body)
                (the (TWILIO_ACCOUNT_SID w), the (TWILIO_AUTH_TOKEN w))
                10.

(** The notifier's preconditions, as [send_whatsapp_message] tests them. *)
Definition configured (w : World) : bool :=
  Py.all [ TWILIO_ACCOUNT_SID w; TWILIO_AUTH_TOKEN w;
           TWILIO_WHATSAPP_FROM w; OWNER_WHATSAPP_TO w ].

(** The events of a notification attempt: the handler's call of the
    notifier and the notifier's request. *)
Definition is_notification (ev : event) : bool :=
  match ev with
  | Call_send_whatsapp_message _ => true
  | Call_requests_post _ _ _ _ => true
  | _ => false
  end.

(** The two bodies [create_contact] can end with. *)
Definition success (doc_id : str) : json :=
  JObject [ (lit "ok", JBool true); (lit "id", JString doc_id) ].

Definition database_error (e : Exception) : str :=
  lit "Database error: " ++ slice_to 120 (str_of e).

(** The errors pydantic collects over the four fields. *)
Definition field_errors (members : list (str * json)) : list validation_error :=
  errors_of (required_str (lit "name") members)
  ++ errors_of (required_str (lit "phone") members)
  ++ errors_of (optional_str (lit "email") members)
  ++ errors_of (required_str (lit "message") members).

(** [sub] occurs in [s]. *)
Definition contains (sub s : str) : Prop :=
  exists before after, s = before ++ sub ++ after.

(** The records the persistence gateway received during a request. *)
Fixpoint persisted (tr : trace) : list ContactMessage :=
  match tr with
  | [] => []
  | Call_create_document _ data :: rest => data :: persisted rest
  | _ :: rest => persisted rest
  end.

(** Every record persisted for [body] in [w] has a name and a phone that
    are not empty. *)
Definition persists_only_named_contacts (w : World) (body : json) : Prop :=
  forall msg,
    In msg (persisted (snd (post_api_contact w body))) ->
    name msg <> [] /\ phone msg <> [].

(** ** Sample worlds

    Concrete environments and collaborators, on which the handlers run by
    computation. *)

Definition environ_of (vars : list (str * str)) (key : str) : option str :=
  match find (fun kv => Py.eqb (fst kv) key) vars with
  | Some kv => Some (snd kv)
  | None => None
  end.

Definition twilio_vars (enabled : str) : list (str * str) :=
  [ (lit "TWILIO_WHATSAPP_ENABLED", enabled);
    (lit "TWILIO_ACCOUNT_SID", lit "AC42");
    (lit "TWILIO_AUTH_TOKEN", lit "s3cret");
    (lit "TWILIO_WHATSAPP_FROM", lit "whatsapp:+14155238886");
    (lit "OWNER_WHATSAPP_TO", lit "whatsapp:+919782017257") ].

(** A database handle with twelve collections. *)
Definition twelve_names : list str :=
  map (fun c => [c]) [97; 98; 99; 100; 101; 102; 103; 104; 105; 106; 107; 108].

Definition working_db : Database :=
  {| db_name := Some (lit "appdb");
     list_collection_names := inr twelve_names |}.

Definition broken_db : Database :=
  {| db_name := Some (lit "appdb");
     list_collection_names := inl (OtherError (repeat 120 60)) |}.

(** A world with the schema of the spec, in which the persistence gateway
    answers [stored], the provider answers [posted] and the database import
    answers [imported]. *)
Definition sample_world (vars : list (str * str))
  (stored : Exception + str) (posted : Exception + N)
  (imported : Exception + option Database) : World :=
  {| getenv := environ_of vars;
     ContactMessage_check := ContactMessage_constraints;
     create_document := fun _ _ => stored;
     requests_post := fun _ _ _ _ => posted;
     import_db := imported |}.

Definition world_delivering : World :=
  sample_world (twilio_vars (lit "True")) (inr (lit "65f0c1"))
               (inr 201) (inr (Some working_db)).

Definition world_silent : World :=
  sample_world [] (inr (lit "65f0c1"))
               (inl (OtherError (lit "connection refused"))) (inr None).

Definition world_storage_down : World :=
  sample_world (twilio_vars (lit "true")) (inl (OtherError (repeat 120 200)))
               (inr 201) (inr (Some broken_db)).

Definition ana : json :=
  JObject [ (lit "name", JString (lit "Ana"));
            (lit "phone", JString (lit "555-1"));
            (lit "message", JString (lit "Hi")) ].

Definition anonymous : json :=
  JObject [ (lit "name", JString []);
            (lit "phone", JString []);
            (lit "message", JString (lit "Hi")) ].

Definition no_phone : json :=
  JObject [ (lit "name", JString (lit "Ana"));
            (lit "message", JString (lit "Hi")) ].

(** A message of 501 characters. *)
Definition long_message : str := repeat 109 501.

Definition long_payload : ContactIn :=
  {| in_name := lit "Ana"; in_phone := lit "555-1";
     in_email := None; in_message := long_message |}.

Definition long_body : json :=
  JObject [ (lit "name", JString (lit "Ana"));
            (lit "phone", JString (lit "555-1"));
            (lit "message", JString long_message) ].

(** Worlds with the two database variables set. *)
Definition database_vars : list (str * str) :=
  [ (lit "DATABASE_URL", lit "mongodb://localhost:27017");
    (lit "DATABASE_NAME", lit "appdb") ].

Definition world_probing (imported : Exception + option Database) : World :=
  sample_world database_vars (inr (lit "65f0c1")) (inr 201) imported.

(** ** Further observations and samples *)


Definition is_notifier_call (ev : event) : bool :=
  match ev with
  | Call_send_whatsapp_message _ => true
  | _ => false
  end.

Definition is_post (ev : event) : bool :=
  match ev with
  | Call_requests_post _ _ _ _ => true
  | _ => false
  end.

(** A schema that wants a name: one way [schemas.ContactMessage] may
    constrain its fields. *)
Definition named_schema (kwargs : ContactIn) : option str :=
  match in_name kwargs with
  | [] => Some (lit "name: String should have at least 1 character")
  | _ :: _ => None
  end.

Definition world_strict : World :=
  {| getenv := environ_of (twilio_vars (lit "true"));
     ContactMessage_check := named_schema;
     create_document := fun _ _ => inr (lit "65f0c1");
     requests_post := fun _ _ _ _ => inr 201;
     import_db := inr None |}.


(** The handle of [working_db] under another name. *)
Definition renamed_db : Database :=
  {| db_name := None;
     list_collection_names := inr twelve_names |}.

(** * Properties *)

(** ** Strings *)

Lemma slice_to_length (n : nat) (s : str) : (List.length (slice_to n s) <= n)%nat.
Proof. unfold slice_to. apply firstn_le_length. Qed.

Lemma truthy_spec (o : option str) :
  truthy o = true <-> exists c s, o = Some (c :: s).
Proof.
  split.
  - destruct o as [[|c s]|]; simpl; intro H; try discriminate.
    exists c, s. reflexivity.
  - intros (c & s & ->). reflexivity.
Qed.

Lemma truthy_false (o : option str) :
  truthy o = false <-> o = None \/ o = Some [].
Proof.
  destruct o as [[|c s]|]; simpl; split; intro H; auto; try discriminate.
  destruct H as [H|H]; discriminate.
Qed.

Lemma configured_spec (w : World) :
  configured w = true <->
  truthy (TWILIO_ACCOUNT_SID w) = true /\ truthy (TWILIO_AUTH_TOKEN w) = true /\
  truthy (TWILIO_WHATSAPP_FROM w) = true /\ truthy (OWNER_WHATSAPP_TO w) = true.
Proof.
  unfold configured, Py.all. simpl.
  rewrite !andb_true_iff. intuition.
Qed.

(** ** The notifier *)

(** The three ways through [send_whatsapp_message], on any trace. *)
Lemma send_whatsapp_message_run (w : World) (body : str) (tr : trace) :
  send_whatsapp_message w body tr =
  if TWILIO_WHATSAPP_ENABLED w && configured w
  then (inr match twilio_answer w body with
            | inr status_code => status_ok status_code
            | inl _ => false
            end,
        tr ++ [twilio_request w body])
  else (inr false, tr).
Proof.
  unfold send_whatsapp_message, twilio_answer, twilio_request.
  fold (configured w).
  destruct (TWILIO_WHATSAPP_ENABLED w); [|reflexivity].
  destruct (configured w); [|reflexivity].
  cbn [negb andb].
  unfold try_except, bind, emit, modify, outcome, ret.
  destruct (requests_post w _ _ _ _); reflexivity.
Qed.

Lemma send_whatsapp_message_returns (w : World) (body : str) (tr : trace) :
  exists b, result_of (send_whatsapp_message w body) tr = inr b.
Proof.
  unfold result_of. rewrite send_whatsapp_message_run.
  destruct (_ && _); simpl; eauto.
Qed.

Lemma status_ok_spec (status_code : N) :
  status_ok status_code = true <-> status_code = 200 \/ status_code = 201.
Proof.
  unfold status_ok. rewrite orb_true_iff, !N.eqb_eq. reflexivity.
Qed.

(** C5: the notifier returns a boolean on every path, from any trace, and
    raises nothing.  With the flag enabled and the four configuration
    values present it makes exactly one POST, with timeout 10, and returns
    [true] exactly when the provider answers 200 or 201; every other status
    code and every exception of the call gives [false]. *)
Theorem notifier_result_follows_status (w : World) (body : str) :
  (forall tr, exists b, result_of (send_whatsapp_message w body) tr = inr b) /\
  (TWILIO_WHATSAPP_ENABLED w = true -> configured w = true ->
   state_after (send_whatsapp_message w body) [] = [twilio_request w body] /\
   (result_of (send_whatsapp_message w body) [] = inr true <->
    twilio_answer w body = inr 200 \/ twilio_answer w body = inr 201) /\
   (forall status_code,
       twilio_answer w body = inr status_code ->
       status_code <> 200 -> status_code <> 201 ->
       result_of (send_whatsapp_message w body) [] = inr false) /\
   (forall e,
       twilio_answer w body = inl e ->
       result_of (send_whatsapp_message w body) [] = inr false)).
Proof.
  split; [intro tr; apply send_whatsapp_message_returns|].
  intros Henabled Hconfigured.
  unfold result_of, state_after. rewrite send_whatsapp_message_run.
  rewrite Henabled, Hconfigured. simpl.
  split; [reflexivity|].
  destruct (twilio_answer w body) as [e|status_code].
  - repeat split; try discriminate; try reflexivity.
    intros [H|H]; discriminate.
  - split; [|split].
    + split.
      * intro H. injection H as H. apply status_ok_spec in H.
        destruct H as [->| ->]; auto.
      * intros [H|H]; injection H as ->; reflexivity.
    + intros sc H Hne200 Hne201. injection H as H. subst sc.
      destruct (status_ok status_code) eqn:Hok; [|reflexivity].
      apply status_ok_spec in Hok. tauto.
    + discriminate.
Qed.

Lemma notifier_result_follows_status_witness :
  result_of (send_whatsapp_message world_delivering (lit "hello")) [] = inr true /\
  state_after (send_whatsapp_message world_delivering (lit "hello")) []
  = [twilio_request world_delivering (lit "hello")].
Proof.
  destruct (notifier_result_follows_status world_delivering (lit "hello"))
    as (_ & Hon).
  destruct (Hon eq_refl eq_refl) as (Htrace & Htrue & _).
  split; [|exact Htrace].
  apply Htrue. right. reflexivity.
Defined.

(** C6: the notifier makes a network call only with the flag enabled and
    the four configuration values present and non-empty.  With the flag
    disabled it returns [false] with no call, whatever the four values are;
    with the flag enabled and one of the values missing or empty it returns
    [false] with no call as well. *)
Theorem notifier_gated_by_flag_and_configuration (w : World) (body : str) :
  (TWILIO_WHATSAPP_ENABLED w = false ->
   send_whatsapp_message w body [] = (inr false, [])) /\
  (forall o,
      In o [ TWILIO_ACCOUNT_SID w; TWILIO_AUTH_TOKEN w;
             TWILIO_WHATSAPP_FROM w; OWNER_WHATSAPP_TO w ] ->
      o = None \/ o = Some [] ->
      send_whatsapp_message w body [] = (inr false, [])) /\
  (state_after (send_whatsapp_message w body) [] <> [] ->
   TWILIO_WHATSAPP_ENABLED w = true /\
   forall o,
     In o [ TWILIO_ACCOUNT_SID w; TWILIO_AUTH_TOKEN w;
            TWILIO_WHATSAPP_FROM w; OWNER_WHATSAPP_TO w ] ->
     exists c s, o = Some (c :: s)).
Proof.
  split; [|split].
  - intro Hoff. unfold send_whatsapp_message. rewrite Hoff. reflexivity.
  - intros o Hin Hfalsy. apply truthy_false in Hfalsy.
    rewrite send_whatsapp_message_run.
    assert (Hc : configured w = false).
    { unfold configured, Py.all.
      apply not_true_is_false. intro Hall.
      rewrite forallb_forall in Hall. specialize (Hall o Hin). congruence. }
    rewrite Hc, andb_false_r. reflexivity.
  - unfold state_after. rewrite send_whatsapp_message_run.
    destruct (TWILIO_WHATSAPP_ENABLED w); simpl; [|congruence].
    destruct (configured w) eqn:Hc; simpl; [|congruence].
    intros _. split; [reflexivity|].
    intros o Hin. apply truthy_spec.
    unfold configured, Py.all in Hc. rewrite forallb_forall in Hc. auto.
Qed.

Lemma notifier_gated_by_flag_and_configuration_witness :
  send_whatsapp_message world_silent (lit "hello") [] = (inr false, []) /\
  TWILIO_WHATSAPP_ENABLED world_delivering = true.
Proof.
  destruct (notifier_gated_by_flag_and_configuration world_silent (lit "hello"))
    as (Hoff & _).
  destruct (notifier_gated_by_flag_and_configuration world_delivering (lit "hello"))
    as (_ & _ & Hon).
  split.
  - apply Hoff. reflexivity.
  - apply Hon. vm_compute. discriminate.
Defined.

(** ** The contact handler *)

(** The three ways through [create_contact]. *)
Lemma create_contact_run (w : World) (payload : ContactIn) :
  create_contact w payload [] =
  let msg := ContactMessage_of payload in
  match ContactMessage_check w payload with
  | Some reason =>
      (inl (Unhandled (OtherError reason)), [Call_ContactMessage payload])
  | None =>
      match create_document w (lit "contactmessage") msg with
      | inl e =>
          (inl (HTTPException 500 (database_error e)),
           [ Call_ContactMessage payload;
             Call_create_document (lit "contactmessage") msg ])
      | inr doc_id =>
          (inr (success doc_id),
           [ Call_ContactMessage payload;
             Call_create_document (lit "contactmessage") msg;
             Call_send_whatsapp_message (contact_body msg) ]
           ++ state_after (send_whatsapp_message w (contact_body msg)) [])
      end
  end.
Proof.
  unfold create_contact, new_ContactMessage, propagate, try_except, bind,
    emit, modify, outcome, raise, ret, state_after.
  cbn [app].
  destruct (ContactMessage_check w payload) as [reason|]; [reflexivity|].
  destruct (create_document w _ _) as [e|doc_id]; [reflexivity|].
  rewrite !send_whatsapp_message_run.
  destruct (_ && _); reflexivity.
Qed.

(** Validation succeeds only on an object that has the three required
    fields as strings, and the payload carries exactly those strings. *)
Lemma ContactIn_validate_inr (body : json) (payload : ContactIn) :
  ContactIn_validate body = inr payload ->
  exists members,
    body = JObject members /\
    get (lit "name") members = Some (JString (in_name payload)) /\
    get (lit "phone") members = Some (JString (in_phone payload)) /\
    get (lit "message") members = Some (JString (in_message payload)).
Proof.
  destruct body as [| | | | |members]; try discriminate.
  unfold ContactIn_validate, required_str, optional_str.
  intro H. exists members. split; [reflexivity|].
  destruct (get (lit "name") members) as [[]|]; try discriminate;
  destruct (get (lit "phone") members) as [[]|]; try discriminate;
  destruct (get (lit "email") members) as [[]|]; try discriminate;
  destruct (get (lit "message") members) as [[]|]; try discriminate;
  injection H as <-; auto.
Qed.

Lemma required_str_missing (key : str) (members : list (str * json)) :
  get key members = None -> required_str key members = inl [(key, missing)].
Proof. unfold required_str. intros ->. reflexivity. Qed.

Lemma ContactIn_validate_inl (members : list (str * json)) :
  field_errors members <> [] ->
  ContactIn_validate (JObject members) = inl (field_errors members).
Proof.
  unfold ContactIn_validate, field_errors. cbv zeta.
  destruct (required_str (lit "name") members);
    destruct (required_str (lit "phone") members);
    destruct (optional_str (lit "email") members);
    destruct (required_str (lit "message") members);
    intro Hne; try reflexivity.
  exfalso. apply Hne. reflexivity.
Qed.

Lemma field_errors_missing (members : list (str * json)) :
  get (lit "name") members = None \/
  get (lit "phone") members = None \/
  get (lit "message") members = None ->
  field_errors members <> [].
Proof.
  unfold field_errors.
  intros [H|[H|H]]; rewrite (required_str_missing _ _ H); cbn [errors_of];
    intro Hnil.
  - discriminate.
  - apply app_eq_nil in Hnil. destruct Hnil as [_ Hnil]. discriminate.
  - do 2 (apply app_eq_nil in Hnil; destruct Hnil as [_ Hnil]).
    apply app_eq_nil in Hnil. destruct Hnil as [_ Hnil]. discriminate.
Qed.

(** C1: for a valid payload whose record the persistence gateway stores
    under [doc_id], the response is 200 with [{ok: true, id: doc_id}]; two
    worlds that agree on this give the same response whatever booleans
    [b1] and [b2] the notifier returns in them. *)
Theorem contact_response_independent_of_notifier
  (w1 w2 : World) (body : json) (payload : ContactIn) (doc_id : str)
  (b1 b2 : bool)
  (Hvalid : ContactIn_validate body = inr payload)
  (Hschema1 : ContactMessage_check w1 payload = None)
  (Hschema2 : ContactMessage_check w2 payload = None)
  (Hstored1 : create_document w1 (lit "contactmessage")
                (ContactMessage_of payload) = inr doc_id)
  (Hstored2 : create_document w2 (lit "contactmessage")
                (ContactMessage_of payload) = inr doc_id)
  (Hnotified1 : result_of (send_whatsapp_message w1
                   (contact_body (ContactMessage_of payload))) [] = inr b1)
  (Hnotified2 : result_of (send_whatsapp_message w2
                   (contact_body (ContactMessage_of payload))) [] = inr b2) :
  fst (post_api_contact w1 body) = JSONResponse 200 (success doc_id) /\
  fst (post_api_contact w2 body) = fst (post_api_contact w1 body).
Proof.
  unfold post_api_contact. rewrite Hvalid, !create_contact_run.
  cbv zeta. rewrite Hschema1, Hschema2, Hstored1, Hstored2.
  split; reflexivity.
Qed.

Lemma contact_response_independent_of_notifier_witness :
  fst (post_api_contact world_delivering ana)
  = JSONResponse 200 (success (lit "65f0c1")) /\
  fst (post_api_contact world_silent ana)
  = fst (post_api_contact world_delivering ana).
Proof.
  apply (contact_response_independent_of_notifier
           world_delivering world_silent ana
           {| in_name := lit "Ana"; in_phone := lit "555-1";
              in_email := None; in_message := lit "Hi" |}
           (lit "65f0c1") true false);
    reflexivity.
Defined.

(** C2: a payload in which [name], [phone] or [message] is absent is
    answered with the validation error response (status 422), and no call
    is made: neither the schema constructor nor the persistence gateway nor
    the notifier. *)
Theorem missing_field_rejected_before_persistence
  (w : World) (members : list (str * json))
  (Habsent : get (lit "name") members = None \/
             get (lit "phone") members = None \/
             get (lit "message") members = None) :
  exists errors,
    post_api_contact w (JObject members) = (RequestValidationError errors, []) /\
    errors <> [] /\
    status_code_of (fst (post_api_contact w (JObject members))) = 422.
Proof.
  pose proof (field_errors_missing members Habsent) as Hne.
  exists (field_errors members).
  unfold post_api_contact.
  rewrite (ContactIn_validate_inl members Hne).
  repeat split. exact Hne.
Qed.

Lemma missing_field_rejected_before_persistence_witness :
  exists errors,
    post_api_contact world_delivering no_phone
    = (RequestValidationError errors, []) /\
    errors <> [] /\
    status_code_of (fst (post_api_contact world_delivering no_phone)) = 422.
Proof.
  apply (missing_field_rejected_before_persistence world_delivering).
  right. left. reflexivity.
Defined.

(** The notifier adds at most its one request to the trace. *)
Lemma notifier_trace (w : World) (body : str) :
  state_after (send_whatsapp_message w body) [] = [] \/
  state_after (send_whatsapp_message w body) [] = [twilio_request w body].
Proof.
  unfold state_after. rewrite send_whatsapp_message_run.
  destruct (_ && _); simpl; auto.
Qed.

(** The trace of a request, by the way the request ends. *)
Lemma post_api_contact_trace (w : World) (body : json) :
  snd (post_api_contact w body) = [] \/
  exists payload,
    ContactIn_validate body = inr payload /\
    let msg := ContactMessage_of payload in
    (snd (post_api_contact w body) = [Call_ContactMessage payload] /\
     ContactMessage_check w payload <> None) \/
    (ContactMessage_check w payload = None /\
     ((snd (post_api_contact w body)
       = [ Call_ContactMessage payload;
           Call_create_document (lit "contactmessage") msg ] /\
       exists e, create_document w (lit "contactmessage") msg = inl e) \/
      (exists doc_id,
          create_document w (lit "contactmessage") msg = inr doc_id /\
          snd (post_api_contact w body)
          = [ Call_ContactMessage payload;
              Call_create_document (lit "contactmessage") msg;
              Call_send_whatsapp_message (contact_body msg) ]
            ++ state_after (send_whatsapp_message w (contact_body msg)) []))).
Proof.
  unfold post_api_contact.
  destruct (ContactIn_validate body) as [errors|payload]; [left; reflexivity|].
  right. exists payload. split; [reflexivity|].
  rewrite create_contact_run. cbv zeta.
  destruct (ContactMessage_check w payload) as [reason|].
  - left. split; [reflexivity|discriminate].
  - right. split; [reflexivity|].
    destruct (create_document w _ _) as [e|doc_id].
    + left. split; [reflexivity|eauto].
    + right. exists doc_id. split; reflexivity.
Qed.

(** C3: when the persistence gateway raises, the response is 500 with the
    detail ["Database error: "] followed by the first 120 characters of the
    exception text, and the trace ends at the persistence call: the
    notifier is not called.  In every run, a notifier call is preceded by a
    persistence call that returned an identifier. *)
Theorem storage_failure_abandons_submission
  (w : World) (body : json) (payload : ContactIn) (e : Exception)
  (Hvalid : ContactIn_validate body = inr payload)
  (Hschema : ContactMessage_check w payload = None)
  (Hfailed : create_document w (lit "contactmessage")
               (ContactMessage_of payload) = inl e) :
  post_api_contact w body
  = (JSONResponse 500
       (JObject [ (lit "detail",
                   JString (lit "Database error: " ++ slice_to 120 (str_of e))) ]),
     [ Call_ContactMessage payload;
       Call_create_document (lit "contactmessage") (ContactMessage_of payload) ]) /\
  (List.length (slice_to 120 (str_of e)) <= 120)%nat /\
  existsb is_notification (snd (post_api_contact w body)) = false /\
  (forall body',
      existsb is_notification (snd (post_api_contact w body')) = true ->
      exists payload' doc_id rest,
        ContactIn_validate body' = inr payload' /\
        create_document w (lit "contactmessage") (ContactMessage_of payload')
        = inr doc_id /\
        snd (post_api_contact w body')
        = Call_ContactMessage payload'
            :: Call_create_document (lit "contactmessage")
                 (ContactMessage_of payload')
            :: rest /\
        existsb is_notification
          [ Call_ContactMessage payload';
            Call_create_document (lit "contactmessage")
              (ContactMessage_of payload') ] = false).
Proof.
  assert (Hrun : post_api_contact w body
                 = (JSONResponse 500
                      (JObject [ (lit "detail", JString (database_error e)) ]),
                    [ Call_ContactMessage payload;
                      Call_create_document (lit "contactmessage")
                        (ContactMessage_of payload) ])).
  { unfold post_api_contact. rewrite Hvalid, create_contact_run.
    cbv zeta. rewrite Hschema, Hfailed. reflexivity. }
  split; [exact Hrun|].
  split; [apply slice_to_length|].
  split; [rewrite Hrun; reflexivity|].
  intros body' Hnotified.
  destruct (post_api_contact_trace w body')
    as [Hnil|(payload' & Hvalid' & [[Htr _]|[_ [[Htr _]|(doc_id & Hstored & Htr)]]])];
    try (rewrite Hnil in Hnotified; discriminate);
    try (rewrite Htr in Hnotified; discriminate).
  exists payload', doc_id. eexists.
  repeat split; [exact Hvalid'|exact Hstored|exact Htr].
Qed.

Lemma storage_failure_abandons_submission_witness :
  fst (post_api_contact world_storage_down ana)
  = JSONResponse 500
      (JObject [ (lit "detail",
                  JString (lit "Database error: " ++ repeat 120 120)) ]) /\
  existsb is_notification (snd (post_api_contact world_storage_down ana)) = false.
Proof.
  destruct (storage_failure_abandons_submission world_storage_down ana
              {| in_name := lit "Ana"; in_phone := lit "555-1";
                 in_email := None; in_message := lit "Hi" |}
              (OtherError (repeat 120 200)) eq_refl eq_refl eq_refl)
    as (Hrun & _ & Hquiet & _).
  split; [rewrite Hrun; reflexivity|exact Hquiet].
Defined.

(** C4: once the record is stored, the handler calls the notifier with a
    body made of the name, the phone, the email (a dash when the email is
    absent) and the first 500 characters of the message, while the record
    handed to the persistence gateway carries the whole message. *)
Theorem notification_truncates_message_storage_keeps_it
  (w : World) (body : json) (payload : ContactIn) (doc_id : str)
  (Hvalid : ContactIn_validate body = inr payload)
  (Hschema : ContactMessage_check w payload = None)
  (Hstored : create_document w (lit "contactmessage")
               (ContactMessage_of payload) = inr doc_id) :
  let notified :=
    lit "New Contact Message" ++ newline
    ++ lit "Name: " ++ in_name payload ++ newline
    ++ lit "Phone: " ++ in_phone payload ++ newline
    ++ lit "Email: " ++ or_else (in_email payload) (lit "-") ++ newline
    ++ lit "Message: " ++ firstn 500 (in_message payload) in
  (exists stored,
      snd (post_api_contact w body)
      = [ Call_ContactMessage payload;
          Call_create_document (lit "contactmessage") stored;
          Call_send_whatsapp_message notified ]
        ++ state_after (send_whatsapp_message w notified) [] /\
      message stored = in_message payload) /\
  (TWILIO_WHATSAPP_ENABLED w = true -> configured w = true ->
   exists url from to auth,
     state_after (send_whatsapp_message w notified) []
     = [ Call_requests_post url
           [ (lit "From", from); (lit "To", to); (lit "Body", notified) ]
           auth 10 ]) /\
  (in_email payload = None ->
   contains (lit "Email: -" ++ newline) notified) /\
  (forall c s, in_email payload = Some (c :: s) ->
   contains (lit "Email: " ++ (c :: s) ++ newline) notified) /\
  (List.length (firstn 500 (in_message payload)) <= 500)%nat /\
  (List.length (in_message payload) <= 500 ->
   firstn 500 (in_message payload) = in_message payload)%nat /\
  (500 < List.length (in_message payload) ->
   List.length (firstn 500 (in_message payload))
   <> List.length (in_message payload))%nat.
Proof.
  intro notified.
  assert (Hbody : contact_body (ContactMessage_of payload) = notified)
    by reflexivity.
  split; [|split; [|split; [|split; [|split; [|split]]]]].
  - exists (ContactMessage_of payload). split; [|reflexivity].
    unfold post_api_contact. rewrite Hvalid, create_contact_run.
    cbv zeta. rewrite Hschema, Hstored, Hbody. reflexivity.
  - intros Hon Hconf. unfold state_after.
    rewrite send_whatsapp_message_run, Hon, Hconf.
    do 4 eexists. reflexivity.
  - intro Hnone. subst notified. rewrite Hnone. cbn [or_else].
    exists (lit "New Contact Message" ++ newline
            ++ lit "Name: " ++ in_name payload ++ newline
            ++ lit "Phone: " ++ in_phone payload ++ newline),
           (lit "Message: " ++ firstn 500 (in_message payload)).
    repeat rewrite <- app_assoc. reflexivity.
  - intros c s Hsome. subst notified. rewrite Hsome. cbn [or_else].
    exists (lit "New Contact Message" ++ newline
            ++ lit "Name: " ++ in_name payload ++ newline
            ++ lit "Phone: " ++ in_phone payload ++ newline),
           (lit "Message: " ++ firstn 500 (in_message payload)).
    repeat rewrite <- app_assoc. reflexivity.
  - apply firstn_le_length.
  - intro Hshort. apply firstn_all2. exact Hshort.
  - intro Hlong. rewrite firstn_length_le; lia.
Qed.

Lemma notification_truncates_message_storage_keeps_it_witness :
  contains (lit "Email: -" ++ newline)
    (contact_body (ContactMessage_of long_payload)) /\
  (List.length (firstn 500 long_message) <> List.length long_message)%nat.
Proof.
  destruct (notification_truncates_message_storage_keeps_it
              world_delivering long_body long_payload (lit "65f0c1")
              eq_refl eq_refl eq_refl)
    as (_ & _ & Hdash & _ & _ & _ & Hlong).
  split.
  - apply Hdash. reflexivity.
  - apply Hlong. unfold long_payload, long_message. cbn [in_message].
    rewrite repeat_length. lia.
Defined.

Lemma persisted_notifier (w : World) (body : str) :
  persisted (state_after (send_whatsapp_message w body) []) = [].
Proof.
  destruct (notifier_trace w body) as [-> | ->]; reflexivity.
Qed.

(** Every record the handler persists is the one built from the validated
    payload: its name and its phone are the strings the request body gives
    under [name] and [phone], and the payload passed the schema. *)
Lemma persisted_contact_has_the_payload_name_and_phone
  (w : World) (body : json) (msg : ContactMessage)
  (Hpersisted : In msg (persisted (snd (post_api_contact w body)))) :
  exists members payload,
    body = JObject members /\
    get (lit "name") members = Some (JString (name msg)) /\
    get (lit "phone") members = Some (JString (phone msg)) /\
    ContactIn_validate body = inr payload /\
    ContactMessage_check w payload = None /\
    msg = ContactMessage_of payload.
Proof.
  destruct (post_api_contact_trace w body)
    as [Hnil|(payload & Hvalid & [[Htr _]|[Hschema [[Htr _]|(doc_id & _ & Htr)]]])];
    try (rewrite Hnil in Hpersisted; contradiction);
    rewrite Htr in Hpersisted; cbn [persisted app] in Hpersisted;
    try rewrite persisted_notifier in Hpersisted;
    try contradiction;
    destruct Hpersisted as [<-|[]];
    destruct (ContactIn_validate_inr body payload Hvalid)
      as (members & -> & Hname & Hphone & _);
    exists members, payload; auto 10.
Qed.

(** C7: with the schema of the spec, every record the contact handler
    builds and persists has a name and a phone that are not empty, and the
    handler accepts no payload whose name or phone is empty: the schema
    constructor raises at line 110, before the persistence gateway is
    reached, and the request ends without a record and without a
    notification. *)
Theorem persisted_contact_has_name_and_phone (w : World) (body : json)
  (Hschema : forall kwargs,
      ContactMessage_check w kwargs = ContactMessage_constraints kwargs) :
  persists_only_named_contacts w body /\
  (forall payload,
      ContactIn_validate body = inr payload ->
      in_name payload = [] \/ in_phone payload = [] ->
      post_api_contact w body
      = (InternalServerError, [Call_ContactMessage payload])).
Proof.
  split.
  - intros msg Hin.
    destruct (persisted_contact_has_the_payload_name_and_phone w body msg Hin)
      as (members & payload & _ & _ & _ & _ & Hcheck & ->).
    rewrite Hschema in Hcheck. unfold ContactMessage_constraints in Hcheck.
    unfold ContactMessage_of. cbn [name phone].
    destruct (in_name payload), (in_phone payload); try discriminate.
    split; discriminate.
  - intros payload Hvalid Hempty.
    unfold post_api_contact. rewrite Hvalid, create_contact_run. cbv zeta.
    rewrite Hschema. unfold ContactMessage_constraints.
    destruct (in_name payload) as [|c n], (in_phone payload) as [|d p];
      try reflexivity.
    destruct Hempty; discriminate.
Qed.

Lemma persisted_contact_has_name_and_phone_witness :
  persisted (snd (post_api_contact world_delivering ana))
  = [ {| name := lit "Ana"; phone := lit "555-1"; email := None;
         message := lit "Hi" |} ] /\
  persists_only_named_contacts world_delivering ana /\
  post_api_contact world_delivering anonymous
  = (InternalServerError,
     [ Call_ContactMessage {| in_name := []; in_phone := [];
                              in_email := None; in_message := lit "Hi" |} ]).
Proof.
  split; [reflexivity|].
  split.
  - apply (persisted_contact_has_name_and_phone world_delivering ana).
    intro kwargs. reflexivity.
  - apply (persisted_contact_has_name_and_phone world_delivering anonymous).
    + intro kwargs. reflexivity.
    + reflexivity.
    + left. reflexivity.
Defined.

(** ** The diagnostics handler *)

(** Runs [test_database] through each outcome of the import and of the
    enumeration. *)
Ltac run_test_database w :=
  unfold get_test, test_database, test_database_body, probe_database,
    probe_collections, try_except, bind, modify, outcome, ret;
  let Himport := fresh "Himport" in
  let Hnames := fresh "Hnames" in
  destruct (import_db w) as [[m|m]|[db|]] eqn:Himport;
  [ | | destruct (list_collection_names db) as [e|names] eqn:Hnames | ];
  cbn [fst snd].

(** C8: whatever the import of the database handle and the enumeration of
    the collections do, [test_database] returns its dictionary and
    [GET /test] answers 200 with it; each failure is told in the field
    [database], the exception text cut to 50 characters. *)
Theorem test_database_never_raises (w : World) :
  exists r,
    test_database w = inr r /\
    get_test w = JSONResponse 200 (json_of_status_document r) /\
    backend r = check_mark ++ lit " Running" /\
    (forall m, import_db w = inl (ImportError m) ->
       database r
       = cross_mark
         ++ lit " Database module not found (run enable-database first)") /\
    (forall m, import_db w = inl (OtherError m) ->
       database r = cross_mark ++ lit " Error: " ++ firstn 50 m /\
       (List.length (firstn 50 m) <= 50)%nat) /\
    (import_db w = inr None ->
       database r = warning_sign ++ lit "  Available but not initialized") /\
    (forall db e,
       import_db w = inr (Some db) -> list_collection_names db = inl e ->
       database r
       = warning_sign ++ lit "  Connected but Error: " ++ firstn 50 (str_of e) /\
       (List.length (firstn 50 (str_of e)) <= 50)%nat) /\
    (forall db names,
       import_db w = inr (Some db) -> list_collection_names db = inr names ->
       database r = check_mark ++ lit " Connected & Working").
Proof.
  run_test_database w; eexists; (split; [reflexivity|]);
    (split; [reflexivity|]); (split; [reflexivity|]);
    repeat split; intros; try discriminate;
    try apply firstn_le_length;
    repeat match goal with
           | H : inl _ = inl _ |- _ => injection H as H; subst
           | H : inr _ = inr _ |- _ => injection H as H; subst
           | H : Some _ = Some _ |- _ => injection H as H; subst
           | H1 : ?x = _, H2 : ?x = _ |- _ => rewrite H1 in H2
           end;
    try discriminate; reflexivity.
Qed.

(** C9: the fields [database_url] and [database_name] of the dictionary are
    computed from the environment variables [DATABASE_URL] and
    [DATABASE_NAME] alone: two worlds that agree on these two variables
    report the same two fields, whatever their database handles do.  A
    variable counts as set when it is present and not empty. *)
Theorem configuration_flags_follow_environment (w1 w2 : World)
  (Hurl : getenv w1 (lit "DATABASE_URL") = getenv w2 (lit "DATABASE_URL"))
  (Hname : getenv w1 (lit "DATABASE_NAME") = getenv w2 (lit "DATABASE_NAME")) :
  exists r1 r2,
    test_database w1 = inr r1 /\
    test_database w2 = inr r2 /\
    database_url r1 = database_url r2 /\
    database_name r1 = database_name r2 /\
    database_url r1
    = Some (if truthy (getenv w1 (lit "DATABASE_URL"))
            then check_mark ++ lit " Set" else cross_mark ++ lit " Not Set") /\
    database_name r1
    = Some (if truthy (getenv w1 (lit "DATABASE_NAME"))
            then check_mark ++ lit " Set" else cross_mark ++ lit " Not Set").
Proof.
  assert (Hrun : forall w, exists r,
             test_database w = inr r /\
             database_url r = Some (set_or_not (getenv w (lit "DATABASE_URL"))) /\
             database_name r = Some (set_or_not (getenv w (lit "DATABASE_NAME")))).
  { intro w. run_test_database w; eexists; repeat split. }
  destruct (Hrun w1) as (r1 & Hr1 & Hu1 & Hn1).
  destruct (Hrun w2) as (r2 & Hr2 & Hu2 & Hn2).
  exists r1, r2.
  rewrite Hu1, Hn1, Hu2, Hn2, Hurl, Hname.
  repeat split; assumption.
Qed.

Lemma configuration_flags_follow_environment_witness :
  exists r1 r2,
    test_database (world_probing (inr (Some working_db))) = inr r1 /\
    test_database (world_probing (inl (ImportError (lit "No module named 'database'"))))
    = inr r2 /\
    database_url r1 = database_url r2 /\
    database_name r1 = database_name r2 /\
    database_url r1 = Some (check_mark ++ lit " Set") /\
    database_name r1 = Some (check_mark ++ lit " Set").
Proof.
  apply (configuration_flags_follow_environment
           (world_probing (inr (Some working_db)))
           (world_probing (inl (ImportError (lit "No module named 'database'")))));
    reflexivity.
Defined.

(** C10: when the import gives a handle that is not [None], the dictionary
    has [connection_status] equal to ["Connected"], also when the
    enumeration of the collections raises, and [collections] holds at most
    ten names: the first ten when the enumeration succeeds, none when it
    raises. *)
Theorem connected_handle_reports_connected (w : World) (db : Database)
  (Hdb : import_db w = inr (Some db)) :
  exists r,
    test_database w = inr r /\
    connection_status r = lit "Connected" /\
    (List.length (collections r) <= 10)%nat /\
    (forall names,
        list_collection_names db = inr names ->
        collections r = firstn 10 names) /\
    (forall e,
        list_collection_names db = inl e -> collections r = []).
Proof.
  unfold test_database, test_database_body, probe_database,
    probe_collections, try_except, bind, modify, outcome, ret.
  rewrite Hdb.
  destruct (list_collection_names db) as [e|names]; cbn [fst snd];
    eexists; (split; [reflexivity|]); (split; [reflexivity|]);
    cbn [collections set_collections set_database set_database_url
           set_database_name set_connection_status initial_response];
    repeat split; intros; try discriminate; try congruence.
  - auto with arith.
  - apply firstn_le_length.
Qed.

Lemma connected_handle_reports_connected_witness :
  exists r,
    test_database world_storage_down = inr r /\
    connection_status r = lit "Connected" /\
    (List.length (collections r) <= 10)%nat /\
    (forall names,
        list_collection_names broken_db = inr names ->
        collections r = firstn 10 names) /\
    (forall e,
        list_collection_names broken_db = inl e -> collections r = []).
Proof.
  apply (connected_handle_reports_connected world_storage_down broken_db).
  reflexivity.
Defined.

(** * Further properties *)

(** ** The feature flag (line 10) *)

Lemma eqb_eq (s t : str) : Py.eqb s t = true <-> s = t.
Proof.
  revert t. induction s as [|c s IH]; intros [|d t]; simpl;
    try (split; [discriminate|discriminate]); try tauto.
  rewrite andb_true_iff, N.eqb_eq, IH.
  split; [intros [-> ->]; reflexivity|intro H; injection H; auto].
Qed.


Lemma lower_char_letter (c lo : N) :
  97 <= lo -> lo <= 122 ->
  (lower_char c = lo <-> c = lo \/ c = lo - 32).
Proof.
  intros Hlo Hhi. unfold lower_char.
  destruct (65 <=? c) eqn:H1; destruct (c <=? 90) eqn:H2; simpl;
    try apply N.leb_le in H1; try apply N.leb_le in H2;
    try apply N.leb_gt in H1; try apply N.leb_gt in H2; lia.
Qed.

(** X1: the notifier is enabled exactly when [TWILIO_WHATSAPP_ENABLED] is
    set to the four letters of [true], each in upper or lower case; an
    unset variable, and any other value, leaves it disabled. *)
Theorem flag_enabled_iff_true_in_any_case (w : World) :
  (TWILIO_WHATSAPP_ENABLED w = true <->
   exists t r u e,
     getenv w (lit "TWILIO_WHATSAPP_ENABLED") = Some [t; r; u; e] /\
     (t = 116 \/ t = 84) /\ (r = 114 \/ r = 82) /\
     (u = 117 \/ u = 85) /\ (e = 101 \/ e = 69)) /\
  (getenv w (lit "TWILIO_WHATSAPP_ENABLED") = None ->
   TWILIO_WHATSAPP_ENABLED w = false).
Proof.
  unfold TWILIO_WHATSAPP_ENABLED, getenv_default.
  split.
  - rewrite eqb_eq.
    destruct (getenv w (lit "TWILIO_WHATSAPP_ENABLED")) as [v|].
    + change (lit "true") with [116; 114; 117; 101].
      split.
      * destruct v as [|t [|r [|u [|e [|x v]]]]]; try discriminate.
        unfold lower. cbn [map]. intro H. injection H as Ht Hr Hu He.
        apply (lower_char_letter _ 116) in Ht; [|lia|lia].
        apply (lower_char_letter _ 114) in Hr; [|lia|lia].
        apply (lower_char_letter _ 117) in Hu; [|lia|lia].
        apply (lower_char_letter _ 101) in He; [|lia|lia].
        exists t, r, u, e. auto.
      * intros (t & r & u & e & Hv & Ht & Hr & Hu & He).
        injection Hv as ->. unfold lower. cbn [map].
        apply (lower_char_letter _ 116) in Ht; [|lia|lia].
        apply (lower_char_letter _ 114) in Hr; [|lia|lia].
        apply (lower_char_letter _ 117) in Hu; [|lia|lia].
        apply (lower_char_letter _ 101) in He; [|lia|lia].
        congruence.
    + split; [discriminate|].
      intros (t & r & u & e & Hv & _). discriminate.
  - intros ->. reflexivity.
Qed.

(** ** The notifier's request (lines 88-95) *)

(** X2: with the flag on and the four variables set to non-empty values,
    the one request goes to the account's [Messages.json] URL, carries the
    sender, the recipient and the body as form fields, authenticates with
    the account identifier and the token, and has timeout 10. *)
Theorem notifier_request_carries_configuration
  (w : World) (body sid token sender recipient : str)
  (Hon : TWILIO_WHATSAPP_ENABLED w = true)
  (Hsid : TWILIO_ACCOUNT_SID w = Some sid) (Hsid' : sid <> [])
  (Htoken : TWILIO_AUTH_TOKEN w = Some token) (Htoken' : token <> [])
  (Hfrom : TWILIO_WHATSAPP_FROM w = Some sender) (Hfrom' : sender <> [])
  (Hto : OWNER_WHATSAPP_TO w = Some recipient) (Hto' : recipient <> []) :
  state_after (send_whatsapp_message w body) []
  = [ Call_requests_post
        (lit "https://api.twilio.com/2010-04-01/Accounts/" ++ sid
         ++ lit "/Messages.json")
        [ (lit "From", sender); (lit "To", recipient); (lit "Body", body) ]
        (sid, token) 10 ].
Proof.
  unfold state_after. rewrite send_whatsapp_message_run, Hon.
  unfold configured, twilio_request, twilio_data, twilio_url, the, Py.all.
  rewrite Hsid, Htoken, Hfrom, Hto.
  destruct sid, token, sender, recipient; try contradiction.
  reflexivity.
Qed.

Lemma notifier_request_carries_configuration_witness :
  state_after (send_whatsapp_message world_delivering (lit "hello")) []
  = [ Call_requests_post
        (lit "https://api.twilio.com/2010-04-01/Accounts/AC42/Messages.json")
        [ (lit "From", lit "whatsapp:+14155238886");
          (lit "To", lit "whatsapp:+919782017257");
          (lit "Body", lit "hello") ]
        (lit "AC42", lit "s3cret") 10 ].
Proof.
  apply (notifier_request_carries_configuration world_delivering (lit "hello")
           (lit "AC42") (lit "s3cret") (lit "whatsapp:+14155238886")
           (lit "whatsapp:+919782017257"));
    try reflexivity; discriminate.
Defined.

(** X3: from any trace, the notifier keeps what was recorded and adds at
    most one event, a request: it never asks twice, whatever the provider
    answers. *)
Theorem notifier_adds_at_most_one_request
  (w : World) (body : str) (tr : trace) :
  exists sent,
    state_after (send_whatsapp_message w body) tr = tr ++ sent /\
    (List.length sent <= 1)%nat /\
    forallb is_post sent = true /\
    (sent <> [] <->
     TWILIO_WHATSAPP_ENABLED w = true /\ configured w = true).
Proof.
  unfold state_after. rewrite send_whatsapp_message_run.
  destruct (TWILIO_WHATSAPP_ENABLED w), (configured w); cbn [andb snd];
    [ exists [twilio_request w body] | exists [] .. ];
    rewrite ?app_nil_r; repeat split; auto;
    try discriminate; try (intros [H1 H2]; discriminate).
Qed.

(** X17: the notifier answers [true] only for a message the provider
    acknowledged: exactly when the flag is on, the four values are
    configured and the request was answered 200 or 201.  In every other
    case it answers [false]. *)
Theorem notifier_true_iff_acknowledged (w : World) (body : str) :
  (result_of (send_whatsapp_message w body) [] = inr true <->
   TWILIO_WHATSAPP_ENABLED w = true /\ configured w = true /\
   (twilio_answer w body = inr 200 \/ twilio_answer w body = inr 201)) /\
  (result_of (send_whatsapp_message w body) [] = inr true \/
   result_of (send_whatsapp_message w body) [] = inr false).
Proof.
  unfold result_of. rewrite send_whatsapp_message_run.
  destruct (TWILIO_WHATSAPP_ENABLED w), (configured w); cbn [andb fst];
    try (split; [split; [discriminate|intros (H1 & H2 & _); discriminate]
                |right; reflexivity]).
  destruct (twilio_answer w body) as [e|status_code].
  - split; [|right; reflexivity].
    split; [discriminate|intros (_ & _ & [H|H]); discriminate].
  - destruct (status_ok status_code) eqn:Hok.
    + split; [|left; reflexivity].
      apply status_ok_spec in Hok.
      split; [intros _|reflexivity].
      repeat split. destruct Hok as [-> | ->]; auto.
    + split; [|right; reflexivity].
      split; [discriminate|].
      intros (_ & _ & [H|H]); injection H as ->; discriminate.
Qed.

(** ** What [ContactIn] accepts (lines 101-105) *)

(** X4: a body is accepted as a [ContactIn] exactly when it is an object
    in which [name], [phone] and [message] are strings and [email] is a
    string, [null] or absent; the payload holds these strings, and no email
    for [null] or absent. *)
Theorem ContactIn_accepts_iff (body : json) (payload : ContactIn) :
  ContactIn_validate body = inr payload <->
  exists members,
    body = JObject members /\
    get (lit "name") members = Some (JString (in_name payload)) /\
    get (lit "phone") members = Some (JString (in_phone payload)) /\
    get (lit "message") members = Some (JString (in_message payload)) /\
    match in_email payload with
    | Some e => get (lit "email") members = Some (JString e)
    | None => get (lit "email") members = None \/
              get (lit "email") members = Some JNull
    end.
Proof.
  split.
  - destruct body as [| | | | |members]; try discriminate.
    unfold ContactIn_validate, required_str, optional_str.
    intro H. exists members. split; [reflexivity|].
    destruct (get (lit "name") members) as [[]|]; try discriminate;
    destruct (get (lit "phone") members) as [[]|]; try discriminate;
    destruct (get (lit "email") members) as [[]|]; try discriminate;
    destruct (get (lit "message") members) as [[]|]; try discriminate;
    injection H as <-; cbn [in_name in_phone in_email in_message]; auto.
  - intros (members & -> & Hname & Hphone & Hmessage & Hemail).
    unfold ContactIn_validate, required_str, optional_str.
    rewrite Hname, Hphone, Hmessage.
    destruct payload as [n p [e|] m]; cbn [in_email] in Hemail.
    + rewrite Hemail. reflexivity.
    + destruct Hemail as [-> | ->]; reflexivity.
Qed.




(** ** How a contact request ends (lines 107-126) *)

(** The four ends of a request. *)
Lemma post_api_contact_cases (w : World) (body : json) :
  (exists errors,
      ContactIn_validate body = inl errors /\
      post_api_contact w body = (RequestValidationError errors, [])) \/
  (exists payload reason,
      ContactIn_validate body = inr payload /\
      ContactMessage_check w payload = Some reason /\
      post_api_contact w body
      = (InternalServerError, [Call_ContactMessage payload])) \/
  (exists payload e,
      ContactIn_validate body = inr payload /\
      ContactMessage_check w payload = None /\
      create_document w (lit "contactmessage") (ContactMessage_of payload)
      = inl e /\
      post_api_contact w body
      = (JSONResponse 500 (JObject [ (lit "detail", JString (database_error e)) ]),
         [ Call_ContactMessage payload;
           Call_create_document (lit "contactmessage")
             (ContactMessage_of payload) ])) \/
  (exists payload doc_id,
      ContactIn_validate body = inr payload /\
      ContactMessage_check w payload = None /\
      create_document w (lit "contactmessage") (ContactMessage_of payload)
      = inr doc_id /\
      post_api_contact w body
      = (JSONResponse 200 (success doc_id),
         [ Call_ContactMessage payload;
           Call_create_document (lit "contactmessage")
             (ContactMessage_of payload);
           Call_send_whatsapp_message
             (contact_body (ContactMessage_of payload)) ]
         ++ if TWILIO_WHATSAPP_ENABLED w && configured w
            then [twilio_request w (contact_body (ContactMessage_of payload))]
            else [])).
Proof.
  unfold post_api_contact.
  destruct (ContactIn_validate body) as [errors|payload].
  { left. exists errors. split; reflexivity. }
  right. rewrite create_contact_run. cbv zeta.
  destruct (ContactMessage_check w payload) as [reason|] eqn:Hschema.
  { left. exists payload, reason. repeat split. exact Hschema. }
  right.
  destruct (create_document w _ _) as [e|doc_id] eqn:Hstored.
  { left. exists payload, e. repeat split; assumption. }
  right. exists payload, doc_id. repeat split; try assumption.
  unfold state_after. rewrite send_whatsapp_message_run.
  destruct (_ && _); reflexivity.
Qed.

(** Case analysis on the end of the request for [body] in [w]. *)
Ltac contact_cases w body :=
  let Hvalid := fresh "Hvalid" in
  let Hschema := fresh "Hschema" in
  let Hstored := fresh "Hstored" in
  let Hrun := fresh "Hrun" in
  destruct (post_api_contact_cases w body)
    as [(errors & Hvalid & Hrun)
       |[(payload & reason & Hvalid & Hschema & Hrun)
        |[(payload & e & Hvalid & Hschema & Hstored & Hrun)
         |(payload & doc_id & Hvalid & Hschema & Hstored & Hrun)]]];
  rewrite Hrun; cbn [fst snd status_code_of].

(** X7: a contact request is answered 422, 200 or 500 and nothing else:
    422 exactly when the body is not a valid [ContactIn], 200 exactly when
    the record was built and stored, 500 exactly when the schema or the
    persistence gateway raised. *)
Theorem contact_status_is_422_200_or_500 (w : World) (body : json) :
  (status_code_of (fst (post_api_contact w body)) = 422 <->
   exists errors, ContactIn_validate body = inl errors) /\
  (status_code_of (fst (post_api_contact w body)) = 200 <->
   exists payload doc_id,
     ContactIn_validate body = inr payload /\
     ContactMessage_check w payload = None /\
     create_document w (lit "contactmessage") (ContactMessage_of payload)
     = inr doc_id) /\
  (status_code_of (fst (post_api_contact w body)) = 500 <->
   exists payload,
     ContactIn_validate body = inr payload /\
     ((exists reason, ContactMessage_check w payload = Some reason) \/
      (ContactMessage_check w payload = None /\
       exists e,
         create_document w (lit "contactmessage") (ContactMessage_of payload)
         = inl e))).
Proof.
  contact_cases w body; (split; [|split]); split;
    first [ intros _; reflexivity
          | intro H; discriminate H
          | intros _; solve [eauto 10]
          | intros (x & H); congruence
          | intros (x & y & H1 & H2 & H3); congruence
          | intros (x & H1 & [(y & H2)|(H2 & y & H3)]); congruence ].
Qed.

(** X8: an exception of the schema constructor is not caught: the request
    ends in the plain 500 of an unhandled exception, and neither the
    persistence gateway nor the notifier is called. *)
Theorem schema_rejection_is_unhandled
  (w : World) (body : json) (payload : ContactIn) (reason : str)
  (Hvalid : ContactIn_validate body = inr payload)
  (Hschema : ContactMessage_check w payload = Some reason) :
  post_api_contact w body
  = (InternalServerError, [Call_ContactMessage payload]) /\
  status_code_of (fst (post_api_contact w body)) = 500 /\
  persisted (snd (post_api_contact w body)) = [] /\
  existsb is_notification (snd (post_api_contact w body)) = false.
Proof.
  assert (Hrun : post_api_contact w body
                 = (InternalServerError, [Call_ContactMessage payload])).
  { unfold post_api_contact. rewrite Hvalid, create_contact_run.
    cbv zeta. rewrite Hschema. reflexivity. }
  rewrite Hrun. repeat split.
Qed.

Lemma schema_rejection_is_unhandled_witness :
  post_api_contact world_strict anonymous
  = (InternalServerError,
     [ Call_ContactMessage {| in_name := []; in_phone := [];
                              in_email := None; in_message := lit "Hi" |} ]).
Proof.
  apply (schema_rejection_is_unhandled world_strict anonymous
           {| in_name := []; in_phone := [];
              in_email := None; in_message := lit "Hi" |}
           (lit "name: String should have at least 1 character"));
    reflexivity.
Defined.

(** X9: whatever the request and the world, the handler calls the
    persistence gateway at most once, always for the collection
    [contactmessage], calls the notifier at most once, and at most one
    request leaves for the provider: nothing is retried. *)
Theorem contact_request_calls_each_collaborator_at_most_once
  (w : World) (body : json) :
  (List.length (persisted (snd (post_api_contact w body))) <= 1)%nat /\
  (forall collection data,
      In (Call_create_document collection data) (snd (post_api_contact w body)) ->
      collection = lit "contactmessage") /\
  (List.length (filter is_notifier_call (snd (post_api_contact w body))) <= 1)%nat /\
  (List.length (filter is_post (snd (post_api_contact w body))) <= 1)%nat.
Proof.
  contact_cases w body;
    try destruct (TWILIO_WHATSAPP_ENABLED w && configured w);
    cbn [app persisted filter is_notifier_call is_post twilio_request
           List.length];
    repeat split; auto;
    intros collection data Hin; cbn [In] in Hin;
    repeat match goal with
           | H : _ \/ _ |- _ => destruct H as [H|H]
           | H : False |- _ => contradiction
           | H : _ = Call_create_document _ _ |- _ =>
               first [discriminate H | injection H as H; congruence]
           end.
Qed.


(** X11: a request leaves for the provider exactly when the contact
    request is answered 200, the flag is on and the four values are
    configured; it is then the last call of the handler and carries the
    body built from the stored record. *)
Theorem provider_is_reached_iff_stored_and_configured
  (w : World) (body : json) :
  (existsb is_post (snd (post_api_contact w body)) = true <->
   status_code_of (fst (post_api_contact w body)) = 200 /\
   TWILIO_WHATSAPP_ENABLED w = true /\ configured w = true) /\
  (existsb is_post (snd (post_api_contact w body)) = true ->
   exists payload calls,
     ContactIn_validate body = inr payload /\
     snd (post_api_contact w body)
     = calls ++ [twilio_request w (contact_body (ContactMessage_of payload))] /\
     existsb is_post calls = false).
Proof.
  contact_cases w body;
    try (destruct (TWILIO_WHATSAPP_ENABLED w), (configured w));
    cbn [app existsb is_post orb andb twilio_request];
    (split; [split|]); try discriminate; try reflexivity;
    try (intros (H1 & H2 & H3); discriminate); auto.
  intros _.
  exists payload,
    [ Call_ContactMessage payload;
      Call_create_document (lit "contactmessage") (ContactMessage_of payload);
      Call_send_whatsapp_message (contact_body (ContactMessage_of payload)) ].
  split; [exact Hvalid|]. split; reflexivity.
Qed.

(** X12: the length of the notification body: 52 characters of labels and
    line ends, the whole name, the whole phone, the email (one character,
    the dash, when the email is absent or empty) and at most 500 characters
    of the message.  Only the message is cut. *)
Theorem contact_body_length (msg : ContactMessage) :
  List.length (contact_body msg)
  = (52 + List.length (name msg) + List.length (phone msg)
     + match email msg with
       | Some (c :: s) => List.length (c :: s)
       | _ => 1
       end
     + Nat.min 500 (List.length (message msg)))%nat.
Proof.
  unfold contact_body, slice_to, newline.
  rewrite !length_app, length_firstn.
  change (List.length (lit "New Contact Message")) with 19%nat.
  change (List.length (lit "Name: ")) with 6%nat.
  change (List.length (lit "Phone: ")) with 7%nat.
  change (List.length (lit "Email: ")) with 7%nat.
  change (List.length (lit "Message: ")) with 9%nat.
  destruct (email msg) as [[|c s]|]; cbn [or_else List.length];
    change (List.length (lit "-")) with 1%nat; lia.
Qed.



(** ** What the diagnostics tell (lines 37-74) *)

(** X14: [connection_status] is ["Connected"] exactly when the import gave
    a handle that is not [None]; otherwise it is ["Not Connected"] and no
    collection is listed. *)
Theorem connection_status_tells_the_handle (w : World) :
  exists r,
    test_database w = inr r /\
    (connection_status r = lit "Connected" <->
     exists db, import_db w = inr (Some db)) /\
    (connection_status r = lit "Not Connected" <->
     forall db, import_db w <> inr (Some db)) /\
    ((forall db, import_db w <> inr (Some db)) -> collections r = []).
Proof.
  run_test_database w; eexists; (split; [reflexivity|]);
    cbn [connection_status collections set_collections set_database
           set_database_url set_database_name set_connection_status
           initial_response];
    repeat split;
    first [ intros _; reflexivity
          | intro H; discriminate H
          | intros (x & H); discriminate H
          | intros _; solve [eauto]
          | intros _ x H; discriminate H
          | intro H; exfalso; eapply H; reflexivity
          | intros x H; discriminate H ].
Qed.

(** X15: the field [database] reads ["Connected & Working"] exactly when
    there is a handle and its collections could be enumerated; collections
    are listed only then, and all of them when there are at most ten. *)
Theorem working_iff_enumeration_succeeds (w : World) :
  exists r,
    test_database w = inr r /\
    (database r = check_mark ++ lit " Connected & Working" <->
     exists db names,
       import_db w = inr (Some db) /\ list_collection_names db = inr names) /\
    (collections r <> [] ->
     database r = check_mark ++ lit " Connected & Working") /\
    (forall db names,
        import_db w = inr (Some db) -> list_collection_names db = inr names ->
        (List.length names <= 10)%nat -> collections r = names).
Proof.
  run_test_database w; eexists; (split; [reflexivity|]);
    cbn [database collections set_collections set_database
           set_database_url set_database_name set_connection_status
           initial_response];
    (split; [split|split]);
    first [ intros _; reflexivity
          | intro H; discriminate H
          | intros (x & y & H1 & H2); congruence
          | intros _; solve [eauto]
          | intro H; exfalso; apply H; reflexivity
          | intros x y H1 H2 Hlen; try discriminate H1;
            injection H1 as H1; subst; try congruence ].
  rewrite Hnames in H2. injection H2 as <-.
  apply firstn_all2. exact Hlen.
Qed.

(** X16: what lines 52 and 53 write never reaches the caller: two handles
    that enumerate alike give the same dictionary whatever their names
    are, in worlds that agree on the two database variables, and
    [database_url] never reads ["Configured"]. *)
Theorem handle_name_does_not_show (w1 w2 : World) (db1 db2 : Database)
  (Hurl : getenv w1 (lit "DATABASE_URL") = getenv w2 (lit "DATABASE_URL"))
  (Hname : getenv w1 (lit "DATABASE_NAME") = getenv w2 (lit "DATABASE_NAME"))
  (Hdb1 : import_db w1 = inr (Some db1))
  (Hdb2 : import_db w2 = inr (Some db2))
  (Hnames : list_collection_names db1 = list_collection_names db2) :
  exists r,
    test_database w1 = inr r /\
    test_database w2 = inr r /\
    database_url r <> Some (check_mark ++ lit " Configured") /\
    (database_name r = Some (check_mark ++ lit " Set") \/
     database_name r = Some (cross_mark ++ lit " Not Set")).
Proof.
  unfold test_database, test_database_body, probe_database,
    probe_collections, try_except, bind, modify, outcome, ret.
  rewrite Hdb1, Hdb2, Hnames, Hurl, Hname.
  destruct (list_collection_names db2) as [e|names]; cbn [fst snd];
    eexists; (split; [reflexivity|]); (split; [reflexivity|]);
    cbn [database_url database_name set_collections set_database
           set_database_url set_database_name set_connection_status];
    unfold set_or_not;
    destruct (truthy (getenv w2 (lit "DATABASE_URL")));
    destruct (truthy (getenv w2 (lit "DATABASE_NAME")));
    (split; [discriminate|auto]).
Qed.

Lemma handle_name_does_not_show_witness :
  exists r,
    test_database (world_probing (inr (Some working_db))) = inr r /\
    test_database (world_probing (inr (Some renamed_db))) = inr r /\
    database_url r <> Some (check_mark ++ lit " Configured") /\
    (database_name r = Some (check_mark ++ lit " Set") \/
     database_name r = Some (cross_mark ++ lit " Not Set")).
Proof.
  apply (handle_name_does_not_show
           (world_probing (inr (Some working_db)))
           (world_probing (inr (Some renamed_db)))
           working_db renamed_db);
    reflexivity.
Defined.
